(** * telegramassistant.py: the text client of the Google Assistant Service
      and the Telegram message handler in front of it.

    The development embeds [SampleTextAssistant] (constructor and [assist])
    and the module-level handler [assist(bot, update)] and proves the
    properties of the conversation session and of the message router. *)

From Stdlib Require Import ZArith List String Ascii Bool Lia.
From Stdlib Require Import Strings.Byte.
Import ListNotations.
Local Open Scope string_scope.
Local Open Scope list_scope.
Local Open Scope Z_scope.

(** ** Python values *)

(** A Python [bytes] object. *)
Definition bytes := list byte.

(** Truth value of a [bytes] object: non-empty. *)
Definition truthy_bytes (b : bytes) : bool :=
  match b with [] => false | _ :: _ => true end.

(** Truth value of a [str]: non-empty. *)
Definition truthy_str (s : string) : bool :=
  match s with EmptyString => false | String _ _ => true end.

(** Truth value of an attribute that is [None] or a [bytes] object. *)
Definition truthy_opt_bytes (o : option bytes) : bool :=
  match o with None => false | Some b => truthy_bytes b end.

(** ** The messages of embedded_assistant_pb2 that the client touches *)

Module embedded_assistant_pb2.

Inductive AudioEncoding := ENCODING_UNSPECIFIED | LINEAR16 | MP3 | OPUS_IN_OGG.

Record AudioOutConfig := {
  encoding : AudioEncoding;
  sample_rate_hertz : Z;
  volume_percentage : Z }.

Record DialogStateIn := {
  language_code : string;
  conversation_state : bytes }.

Record DeviceConfig := {
  device_id : string;
  device_model_id : string }.

Record AssistConfig := {
  audio_out_config : AudioOutConfig;
  dialog_state_in : DialogStateIn;
  device_config : DeviceConfig;
  text_query : string }.

Record AssistRequest := { config : AssistConfig }.

(** proto3 scalars: an unset field reads as the empty value. *)
Record DialogStateOut := {
  out_conversation_state : bytes;
  supplemental_display_text : string }.

Record AssistResponse := { dialog_state_out : DialogStateOut }.

End embedded_assistant_pb2.
Import embedded_assistant_pb2.

(** ** The response iterator of the streaming call

    [self.assistant.Assist(requests, deadline)] hands back an iterator; the
    [for] loop pulls messages from it until it is exhausted or until pulling
    raises (deadline exceeded, transport failure, error status of the
    service). *)

Inductive StatusCode :=
| DEADLINE_EXCEEDED | UNAVAILABLE | INTERNAL | INVALID_ARGUMENT | UNKNOWN.

Inductive ResponseIterator :=
| StopIteration
| Yield (resp : AssistResponse) (rest : ResponseIterator)
| RpcError (code : StatusCode).

(** The stub of the channel: what one call of [Assist] answers to the request
    it is sent, under the given deadline. *)
Definition EmbeddedAssistantStub := AssistRequest -> Z -> ResponseIterator.

(** How a Python call ends. *)
Inductive completion (A : Type) :=
| Return (v : A)
| Raise (code : StatusCode).
Arguments Return {A} v.
Arguments Raise {A} code.

(** ** class SampleTextAssistant *)

Module SampleTextAssistant.

Record t := {
  language_code : string;
  device_model_id : string;
  device_id : string;
  conversation_state : option bytes;
  deadline : Z }.

(** [__init__]: the channel's stub is kept apart from the record, see
    [assist]. *)
Definition __init__ (language_code device_model_id device_id : string)
    (deadline_sec : Z) : t :=
  {| language_code := language_code;
     device_model_id := device_model_id;
     device_id := device_id;
     conversation_state := None;
     deadline := deadline_sec |}.

Definition set_conversation_state (self : t) (c : bytes) : t :=
  {| language_code := language_code self;
     device_model_id := device_model_id self;
     device_id := device_id self;
     conversation_state := Some c;
     deadline := deadline self |}.

(** The one request that the generator [iter_assist_requests] yields. *)
Definition iter_assist_requests (self : t) (text_query : string)
    : AssistRequest :=
  let dialog_state_in :=
    {| embedded_assistant_pb2.language_code := language_code self;
       embedded_assistant_pb2.conversation_state := [] |} in
  let dialog_state_in :=
    if truthy_opt_bytes (conversation_state self)
    then {| embedded_assistant_pb2.language_code := language_code self;
            embedded_assistant_pb2.conversation_state :=
              match conversation_state self with
              | Some c => c
              | None => []
              end |}
    else dialog_state_in in
  {| config :=
       {| audio_out_config :=
            {| encoding := LINEAR16;
               sample_rate_hertz := 16000;
               volume_percentage := 0 |};
          dialog_state_in := dialog_state_in;
          device_config :=
            {| embedded_assistant_pb2.device_id := device_id self;
               embedded_assistant_pb2.device_model_id :=
                 device_model_id self |};
          text_query := text_query |} |}.

(** The body of [for resp in ...]: one response message. *)
Definition loop_body (resp : AssistResponse) (self : t)
    (display_text : option string) : t * option string :=
  let self :=
    if truthy_bytes (out_conversation_state (dialog_state_out resp))
    then set_conversation_state self
           (out_conversation_state (dialog_state_out resp))
    else self in
  let display_text :=
    if truthy_str (supplemental_display_text (dialog_state_out resp))
    then Some (supplemental_display_text (dialog_state_out resp))
    else display_text in
  (self, display_text).

(** The [for] loop and the [return] after it. An exception of the iterator
    leaves the loop and the method at once: nothing catches it. *)
Fixpoint for_resp (it : ResponseIterator) (self : t)
    (display_text : option string) : t * completion (option string) :=
  match it with
  | StopIteration => (self, Return display_text)
  | RpcError code => (self, Raise code)
  | Yield resp rest =>
      let '(self, display_text) := loop_body resp self display_text in
      for_resp rest self display_text
  end.

(** [assist(self, text_query)], with [stub] the behaviour of
    [self.assistant.Assist] in this call. The generator is drained by the
    call before any response exists, so the request is built from the
    session as the call finds it. *)
Definition assist (stub : EmbeddedAssistantStub) (self : t)
    (text_query : string) : t * completion (option string) :=
  let display_text : option string := None in
  for_resp (stub (iter_assist_requests self text_query) (deadline self))
           self display_text.

End SampleTextAssistant.

(** ** Turn sequences on one session *)

(** One call of [assist]: the query, and how the remote service behaves in
    this call. *)
Record Turn := {
  turn_query : string;
  turn_stub : EmbeddedAssistantStub }.

(** What one turn put on the wire and got back. *)
Record Exchange := {
  sent : AssistRequest;
  received : ResponseIterator;
  outcome : completion (option string) }.

(** The calls of [assist] on one session, one after the other. *)
Fixpoint run_turns (self : SampleTextAssistant.t) (turns : list Turn)
    : list Exchange * SampleTextAssistant.t :=
  match turns with
  | [] => ([], self)
  | turn :: rest =>
      let req :=
        SampleTextAssistant.iter_assist_requests self (turn_query turn) in
      let it := turn_stub turn req (SampleTextAssistant.deadline self) in
      let '(self', res) :=
        SampleTextAssistant.assist (turn_stub turn) self (turn_query turn) in
      let '(log, final) := run_turns self' rest in
      ({| sent := req; received := it; outcome := res |} :: log, final)
  end.

(** The messages an iterator hands out before it ends or raises. *)
Fixpoint messages (it : ResponseIterator) : list AssistResponse :=
  match it with
  | StopIteration | RpcError _ => []
  | Yield resp rest => resp :: messages rest
  end.

(** Whether the iterator ends by raising. *)
Fixpoint raises (it : ResponseIterator) : option StatusCode :=
  match it with
  | StopIteration => None
  | RpcError code => Some code
  | Yield _ rest => raises rest
  end.

(** The iterator that hands out [l] and then ends as [tail] does. *)
Fixpoint yield_all (l : list AssistResponse) (tail : ResponseIterator)
    : ResponseIterator :=
  match l with
  | [] => tail
  | resp :: l' => Yield resp (yield_all l' tail)
  end.

Definition token_of (resp : AssistResponse) : bytes :=
  out_conversation_state (dialog_state_out resp).

Definition text_of (resp : AssistResponse) : string :=
  supplemental_display_text (dialog_state_out resp).

(** The last non-empty conversation state among [l], if there is one. *)
Fixpoint last_token (l : list AssistResponse) : option bytes :=
  match l with
  | [] => None
  | resp :: l' =>
      match last_token l' with
      | Some c => Some c
      | None => if truthy_bytes (token_of resp) then Some (token_of resp)
                else None
      end
  end.

(** The last non-empty display text among [l], if there is one. *)
Fixpoint last_text (l : list AssistResponse) : option string :=
  match l with
  | [] => None
  | resp :: l' =>
      match last_text l' with
      | Some s => Some s
      | None => if truthy_str (text_of resp) then Some (text_of resp)
                else None
      end
  end.

(** What the stored conversation state is after [l] arrived on top of
    [before]. *)
Definition overwritten (before : option bytes) (l : list AssistResponse)
    : option bytes :=
  match last_token l with
  | Some c => Some c
  | None => before
  end.

(** All the messages of the exchanges [log], in order of arrival. *)
Definition arrived (log : list Exchange) : list AssistResponse :=
  flat_map (fun e => messages (received e)) log.

(** The conversation state carried by a request. *)
Definition sent_token (req : AssistRequest) : bytes :=
  conversation_state (dialog_state_in (config req)).

(** ** The Telegram side *)

Record Bot := { username : string }.

(** [members u] tells whether [chat.get_member(user_id=u)] answers; it raises
    [TelegramError] otherwise. *)
Record Chat := {
  chat_type : string;
  chat_id : Z;
  members : Z -> bool }.

Record Message := {
  chat : Chat;
  from_user_id : Z;
  text : string }.

(** The module's constants read from the environment. *)
Record Settings := {
  ALLOWED_CHAT_IDS : list Z;
  AUTHORIZED_USER_IDS : list Z }.

(** [x in l] on a list of integers. *)
Definition contains (l : list Z) (x : Z) : bool := existsb (Z.eqb x) l.

(** [s.split(' ', 1)]: the text before the first space and, when there is a
    space, the text after it. *)
Fixpoint partition_space (s : string) : string * option string :=
  match s with
  | EmptyString => (EmptyString, None)
  | String c s' =>
      if Ascii.eqb c " "%char then (EmptyString, Some s')
      else let '(w, tl) := partition_space s' in (String c w, tl)
  end.

Definition split_space_1 (s : string) : list string :=
  match partition_space s with
  | (w, None) => [w]
  | (w, Some tl) => [w; tl]
  end.

(** Whether [s] has a space in it. *)
Fixpoint has_space (s : string) : bool :=
  match s with
  | EmptyString => false
  | String c s' => Ascii.eqb c " "%char || has_space s'
  end.

(** [s.startswith(p)] *)
Definition startswith (s p : string) : bool := String.prefix p s.

(** The calls that the handler makes on its collaborators, in order. *)
Inductive Call :=
| assistant_assist (text_query : string)
| reply_text (text : option string)
| get_member (user_id : Z)
| leave.

(** The handler runs against the global [assistant]: a computation threads
    the session, logs the calls and ends by returning or by raising. *)
Definition Handler (A : Type) : Type :=
  SampleTextAssistant.t -> list Call * SampleTextAssistant.t * completion A.

Definition ret {A} (v : A) : Handler A := fun a => ([], a, Return v).

Definition bind {A B} (m : Handler A) (k : A -> Handler B) : Handler B :=
  fun a =>
    match m a with
    | (tr, a', Return v) =>
        let '(tr', a'', r) := k v a' in (tr ++ tr', a'', r)
    | (tr, a', Raise code) => (tr, a', Raise code)
    end.

Notation "x <- m ;; k" := (bind m (fun x => k))
  (at level 61, m at next level, right associativity).
Notation "m ;;; k" := (bind m (fun _ => k))
  (at level 61, right associativity).

Definition call (c : Call) : Handler unit := fun a => ([c], a, Return tt).

(** [assistant.assist(text_query=q)] on the global session. *)
Definition call_assistant (stub : EmbeddedAssistantStub) (q : string)
    : Handler (option string) :=
  fun a =>
    let '(a', r) := SampleTextAssistant.assist stub a q in
    ([assistant_assist q], a', r).

(** [for user_id in AUTHORIZED_USER_IDS: try ... except TelegramError] *)
Fixpoint for_user_id (c : Chat) (ids : list Z) (should_leave_chat : bool)
    : Handler bool :=
  match ids with
  | [] => ret should_leave_chat
  | user_id :: rest =>
      call (get_member user_id) ;;;
      for_user_id c rest
        (if members c user_id then false else should_leave_chat)
  end.

(** The handler [assist(bot, update)], on [update.message]. *)
Definition assist (cfg : Settings) (stub : EmbeddedAssistantStub)
    (bot : Bot) (message : Message) : Handler unit :=
  if String.eqb (chat_type (chat message)) "private" then
    if negb (contains (AUTHORIZED_USER_IDS cfg) (from_user_id message)) then
      call (reply_text (Some "Unauthorized"))
    else
      display_text <- call_assistant stub (text message) ;;
      call (reply_text display_text)
  else if startswith (text message) ("@" ++ username bot)%string then
    let message_tokens := split_space_1 (text message) in
    if (1 <? List.length message_tokens)%nat then
      let message_text := nth 1%nat message_tokens EmptyString in
      display_text <- call_assistant stub message_text ;;
      if negb (contains (ALLOWED_CHAT_IDS cfg) (chat_id (chat message)))
         && negb (contains (AUTHORIZED_USER_IDS cfg) (from_user_id message))
      then
        call (reply_text (Some "Unauthorized")) ;;;
        should_leave_chat <- for_user_id (chat message)
                               (AUTHORIZED_USER_IDS cfg) true ;;
        if should_leave_chat then call leave else ret tt
      else
        match display_text with
        | Some t => call (reply_text (Some t))
        | None => ret tt
        end
    else ret tt
  else ret tt.

(** The calls a run of the handler made. *)
Definition calls {A} (r : list Call * SampleTextAssistant.t * completion A)
    : list Call := fst (fst r).

(** The queries [assistant.assist] was invoked with. *)
Fixpoint queries (tr : list Call) : list string :=
  match tr with
  | [] => []
  | assistant_assist q :: tr' => q :: queries tr'
  | _ :: tr' => queries tr'
  end.


(** ** The identifier lists read from the environment

    [ALLOWED_CHAT_IDS] and [AUTHORIZED_USER_IDS] are both computed, when the
    module is loaded, as [list(map(int, os.environ.get(NAME).split(',')))]. *)

(** What stops the module from loading. *)
Inductive StartupError := AttributeError | ValueError.

(** Whether the character [c] occurs in [s]. *)
Fixpoint has_char (c : ascii) (s : string) : bool :=
  match s with
  | EmptyString => false
  | String c' s' => Ascii.eqb c' c || has_char c s'
  end.

(** [s.split(sep)] for a separator of one character: the pieces between
    the separators, empty pieces included. *)
Fixpoint split_char (sep : ascii) (s : string) : list string :=
  match s with
  | EmptyString => [EmptyString]
  | String c s' =>
      if Ascii.eqb c sep then EmptyString :: split_char sep s'
      else match split_char sep s' with
           | w :: tl => String c w :: tl
           | [] => [String c EmptyString]
           end
  end.

(** [list(map(int, pieces))], with [int] the builtin, which answers [None]
    where it raises [ValueError]: the first piece it refuses ends the
    conversion. *)
Fixpoint list_map_int (int : string -> option Z) (pieces : list string)
    : option (list Z) :=
  match pieces with
  | [] => Some []
  | p :: pieces' =>
      match int p with
      | None => None
      | Some z =>
          match list_map_int int pieces' with
          | None => None
          | Some zs => Some (z :: zs)
          end
      end
  end.

(** [list(map(int, os.environ.get(NAME).split(',')))], from what
    [os.environ.get(NAME)] answers: [None] for a variable that is not set,
    which has no [split]. *)
Definition environ_int_list (int : string -> option Z)
    (value : option string) : list Z + StartupError :=
  match value with
  | None => inr AttributeError
  | Some s =>
      match list_map_int int (split_char ","%char s) with
      | Some ids => inl ids
      | None => inr ValueError
      end
  end.

(** Two sessions with the same language code, device identifiers and
    deadline. *)
Definition same_configuration (a a' : SampleTextAssistant.t) : Prop :=
  SampleTextAssistant.language_code a' = SampleTextAssistant.language_code a
  /\ SampleTextAssistant.device_model_id a'
     = SampleTextAssistant.device_model_id a
  /\ SampleTextAssistant.device_id a' = SampleTextAssistant.device_id a
  /\ SampleTextAssistant.deadline a' = SampleTextAssistant.deadline a.

(** ** Sample sessions, services and chat messages *)

Module Samples.

Definition response (c : bytes) (s : string) : AssistResponse :=
  {| dialog_state_out :=
       {| out_conversation_state := c; supplemental_display_text := s |} |}.

Definition token_X : bytes := [x58].
Definition token_A : bytes := [x41].
Definition token_B : bytes := [x42].

Definition session0 : SampleTextAssistant.t :=
  SampleTextAssistant.__init__ "en-US" "model" "device" (60 * 3 + 5).

(** One message with a reply and a token. *)
Definition stub_3pm : EmbeddedAssistantStub :=
  fun _ _ => Yield (response token_X "It's 3pm") StopIteration.

(** A token first, the reply and another token after it. *)
Definition stub_two : EmbeddedAssistantStub :=
  fun _ _ =>
    Yield (response token_A "")
      (Yield (response token_B "done") StopIteration).

(** Messages with neither token nor text. *)
Definition stub_silent : EmbeddedAssistantStub :=
  fun _ _ => Yield (response [] "") (Yield (response [] "") StopIteration).

(** A token arrives, then the deadline passes. *)
Definition stub_late : EmbeddedAssistantStub :=
  fun _ _ => Yield (response token_A "") (RpcError DEADLINE_EXCEEDED).

(** The service fails before any message. *)
Definition stub_down : EmbeddedAssistantStub :=
  fun _ _ => RpcError UNAVAILABLE.

Definition two_turns : list Turn :=
  [ {| turn_query := "what time is it"; turn_stub := stub_3pm |};
    {| turn_query := "and tomorrow"; turn_stub := stub_silent |} ].

Definition cfg : Settings :=
  {| ALLOWED_CHAT_IDS := [-1001]; AUTHORIZED_USER_IDS := [7] |}.

Definition bot : Bot := {| username := "botname" |}.

Definition private_chat (id : Z) : Chat :=
  {| chat_type := "private"; chat_id := id; members := fun _ => true |}.

(** A group that is not allowed and has no authorized member. *)
Definition foreign_group : Chat :=
  {| chat_type := "group"; chat_id := -5; members := fun _ => false |}.

Definition allowed_group : Chat :=
  {| chat_type := "supergroup"; chat_id := -1001;
     members := fun u => Z.eqb u 7 |}.

Definition private_authorized : Message :=
  {| chat := private_chat 7; from_user_id := 7;
     text := "what time is it" |}.

Definition private_stranger : Message :=
  {| chat := private_chat 9; from_user_id := 9;
     text := "what time is it" |}.

Definition group_stranger : Message :=
  {| chat := foreign_group; from_user_id := 9; text := "@botname hello" |}.

Definition group_trailing_space : Message :=
  {| chat := allowed_group; from_user_id := 7; text := "@botname " |}.

Definition group_longer_handle : Message :=
  {| chat := allowed_group; from_user_id := 7;
     text := "@botnameX hello" |}.

(** A stand-in for the builtin [int] on plain decimal numerals, with a
    minus sign or without. *)
Fixpoint digits (s : string) (acc : Z) : option Z :=
  match s with
  | EmptyString => Some acc
  | String c s' =>
      let d := Z.of_N (N_of_ascii c) - 48 in
      if (0 <=? d) && (d <=? 9) then digits s' (10 * acc + d) else None
  end.

Definition int_decimal (s : string) : option Z :=
  match s with
  | EmptyString => None
  | String "-" EmptyString => None
  | String "-" s' => option_map Z.opp (digits s' 0)
  | _ => digits s 0
  end.

Definition group_allowed_member : Message :=
  {| chat := allowed_group; from_user_id := 9; text := "@botname hello" |}.

Definition group_chatter : Message :=
  {| chat := foreign_group; from_user_id := 9; text := "hello @botname" |}.

End Samples.

(** * Properties of the conversation session *)

Section Session.

Import SampleTextAssistant.

Lemma last_token_app (l1 l2 : list AssistResponse) :
  last_token (l1 ++ l2) =
  match last_token l2 with
  | Some c => Some c
  | None => last_token l1
  end.
Proof.
  induction l1 as [|resp l1 IH]; simpl.
  - destruct (last_token l2); reflexivity.
  - rewrite IH. destruct (last_token l2); reflexivity.
Qed.

Lemma last_token_truthy (l : list AssistResponse) (c : bytes) :
  last_token l = Some c -> truthy_bytes c = true.
Proof.
  induction l as [|resp l IH]; simpl; [discriminate|].
  destruct (last_token l) as [c'|].
  - intros H; injection H as ->. now apply IH.
  - destruct (truthy_bytes (token_of resp)) eqn:E; [|discriminate].
    intros H; injection H as <-. exact E.
Qed.

Lemma overwritten_app (o : option bytes) (l1 l2 : list AssistResponse) :
  overwritten o (l1 ++ l2) = overwritten (overwritten o l1) l2.
Proof.
  unfold overwritten. rewrite last_token_app.
  destruct (last_token l2); reflexivity.
Qed.

(** The loop changes the conversation state alone, to the last non-empty
    one it met. *)
Lemma for_resp_self (it : ResponseIterator) :
  forall (self : t) (d : option string),
    fst (for_resp it self d) =
    match last_token (messages it) with
    | Some c => set_conversation_state self c
    | None => self
    end.
Proof.
  induction it as [|resp rest IH|code]; intros self d; simpl; try reflexivity.
  unfold loop_body. rewrite IH. fold (token_of resp).
  destruct (last_token (messages rest)) as [c|];
    destruct (truthy_bytes (token_of resp)); reflexivity.
Qed.

Lemma for_resp_conversation_state (it : ResponseIterator) (self : t)
    (d : option string) :
  conversation_state (fst (for_resp it self d)) =
  overwritten (conversation_state self) (messages it).
Proof.
  rewrite for_resp_self. unfold overwritten.
  destruct (last_token (messages it)); reflexivity.
Qed.

(** The loop's result: the exception of the iterator if it raises, else the
    last non-empty display text, else what was recorded before. *)
Lemma for_resp_completion (it : ResponseIterator) :
  forall (self : t) (d : option string),
    snd (for_resp it self d) =
    match raises it with
    | Some code => Raise code
    | None => Return (match last_text (messages it) with
                      | Some s => Some s
                      | None => d
                      end)
    end.
Proof.
  induction it as [|resp rest IH|code]; intros self d; simpl; try reflexivity.
  unfold loop_body. rewrite IH. fold (text_of resp).
  destruct (raises rest); [reflexivity|].
  destruct (last_text (messages rest)); [reflexivity|].
  destruct (truthy_str (text_of resp)); reflexivity.
Qed.

Lemma messages_yield_all (l : list AssistResponse) (tail : ResponseIterator) :
  messages (yield_all l tail) = l ++ messages tail.
Proof. induction l; simpl; congruence. Qed.

Lemma raises_yield_all (l : list AssistResponse) (tail : ResponseIterator) :
  raises (yield_all l tail) = raises tail.
Proof. induction l; simpl; congruence. Qed.

(** The conversation state that a request carries is the stored one, or the
    empty bytes when nothing is stored. *)
Lemma sent_token_request (self : t) (q : string) :
  sent_token (iter_assist_requests self q) =
  match conversation_state self with
  | Some c => c
  | None => []
  end.
Proof.
  unfold sent_token, iter_assist_requests; simpl.
  destruct (conversation_state self) as [[|b c]|]; reflexivity.
Qed.

Lemma run_turns_cons (self : t) (turn : Turn) (rest : list Turn) :
  run_turns self (turn :: rest) =
  let req := iter_assist_requests self (turn_query turn) in
  let it := turn_stub turn req (deadline self) in
  let r := for_resp it self None in
  ({| sent := req; received := it; outcome := snd r |}
     :: fst (run_turns (fst r) rest),
   snd (run_turns (fst r) rest)).
Proof.
  simpl. unfold assist.
  destruct (for_resp _ self None) as [self' res]; simpl.
  destruct (run_turns self' rest); reflexivity.
Qed.

(** The request of the [k]-th exchange carries the state stored at the
    start, overwritten by everything that arrived before. *)
Lemma run_turns_sent (turns : list Turn) :
  forall (self : t) (k : nat) (cur : Exchange),
    nth_error (fst (run_turns self turns)) k = Some cur ->
    sent_token (sent cur) =
    match overwritten (conversation_state self)
            (arrived (firstn k (fst (run_turns self turns)))) with
    | Some c => c
    | None => []
    end.
Proof.
  induction turns as [|turn rest IH]; intros self k cur.
  - destruct k; discriminate.
  - rewrite run_turns_cons. cbv zeta. cbn [fst].
    destruct k as [|k]; cbn [nth_error firstn].
    + intros H; injection H as <-. cbn [sent arrived flat_map].
      apply sent_token_request.
    + intros H. rewrite (IH _ _ _ H).
      rewrite for_resp_conversation_state.
      unfold arrived; cbn [flat_map received].
      fold (arrived (firstn k (fst (run_turns
             (fst (for_resp (turn_stub turn
                (iter_assist_requests self (turn_query turn))
                (deadline self)) self None)) rest)))).
      rewrite overwritten_app. reflexivity.
Qed.

End Session.

Lemma firstn_succ_nth_error {A : Type} (l : list A) :
  forall (j : nat) (x : A),
    nth_error l j = Some x -> firstn (S j) l = firstn j l ++ [x].
Proof.
  induction l as [|a l IH]; intros [|j] x H; try discriminate.
  - injection H as ->. reflexivity.
  - cbn [nth_error] in H. change (a :: firstn (S j) l = a :: firstn j l ++ [x]).
    now rewrite (IH _ _ H).
Qed.

Lemma arrived_app (l1 l2 : list Exchange) :
  arrived (l1 ++ l2) = arrived l1 ++ arrived l2.
Proof. unfold arrived. apply flat_map_app. Qed.

(** C1 (state threading). On a session fresh from the constructor, the
    conversation state placed in the request of turn [k] is the last
    non-empty conversation state that arrived in the turns before it. So it
    is empty for the first turn, empty while no non-empty state has arrived,
    and it is the last non-empty state of the previous turn whenever that
    turn received one. *)
Theorem state_threading (lc dm di : string) (dl : Z) (turns : list Turn)
    (k : nat) (cur : Exchange) :
  let log := fst (run_turns (SampleTextAssistant.__init__ lc dm di dl) turns) in
  nth_error log k = Some cur ->
  sent_token (sent cur) =
    match last_token (arrived (firstn k log)) with
    | Some c => c
    | None => []
    end
  /\ (k = 0%nat -> sent_token (sent cur) = [])
  /\ (last_token (arrived (firstn k log)) = None -> sent_token (sent cur) = [])
  /\ (forall (j : nat) (prev : Exchange) (c : bytes),
        k = S j -> nth_error log j = Some prev ->
        last_token (messages (received prev)) = Some c ->
        sent_token (sent cur) = c).
Proof.
  intros log Hk.
  assert (G : sent_token (sent cur) =
              match last_token (arrived (firstn k log)) with
              | Some c => c
              | None => []
              end).
  { rewrite (run_turns_sent _ _ _ _ Hk). fold log. unfold overwritten.
    cbn [SampleTextAssistant.__init__ SampleTextAssistant.conversation_state].
    destruct (last_token (arrived (firstn k log))); reflexivity. }
  split; [exact G|]. split; [|split].
  - intros ->. exact G.
  - intros HN. rewrite G, HN. reflexivity.
  - intros j prev c -> Hj Hc. rewrite G.
    rewrite (firstn_succ_nth_error _ _ _ Hj), arrived_app, last_token_app.
    change (arrived [prev]) with (messages (received prev) ++ []).
    rewrite app_nil_r, Hc. reflexivity.
Qed.

Lemma state_threading_witness :
  sent_token
    (SampleTextAssistant.iter_assist_requests
       (SampleTextAssistant.set_conversation_state Samples.session0
          Samples.token_X) "and tomorrow") = Samples.token_X.
Proof.
  destruct (state_threading "en-US" "model" "device" (60 * 3 + 5)
              Samples.two_turns 1
              {| sent := SampleTextAssistant.iter_assist_requests
                           (SampleTextAssistant.set_conversation_state
                              Samples.session0 Samples.token_X)
                           "and tomorrow";
                 received := Samples.stub_silent
                               (SampleTextAssistant.iter_assist_requests
                                  Samples.session0 "and tomorrow") 185;
                 outcome := Return None |}
              eq_refl) as (_ & _ & _ & P).
  apply (P 0%nat
           {| sent := SampleTextAssistant.iter_assist_requests
                        Samples.session0 "what time is it";
              received := Yield (Samples.response Samples.token_X "It's 3pm")
                            StopIteration;
              outcome := Return (Some "It's 3pm") |}
           Samples.token_X); reflexivity.
Defined.

Section Turn.

Import SampleTextAssistant.

Variable stub : EmbeddedAssistantStub.
Variable self : t.
Variable text_query : string.

(** The session after a call of [assist], from the messages of the
    iterator the call loops over. *)
Lemma assist_self :
  fst (assist stub self text_query) =
  match last_token
          (messages (stub (iter_assist_requests self text_query)
                          (deadline self))) with
  | Some c => set_conversation_state self c
  | None => self
  end.
Proof. unfold assist. apply for_resp_self. Qed.

(** How a call of [assist] ends. *)
Lemma assist_completion :
  snd (assist stub self text_query) =
  match raises (stub (iter_assist_requests self text_query)
                     (deadline self)) with
  | Some code => Raise code
  | None =>
      Return (last_text
                (messages (stub (iter_assist_requests self text_query)
                                (deadline self))))
  end.
Proof.
  unfold assist. rewrite for_resp_completion.
  destruct (raises _); [reflexivity|].
  destruct (last_text _); reflexivity.
Qed.

End Turn.

Lemma last_text_absent (l : list AssistResponse) :
  Forall (fun resp => text_of resp = EmptyString) l -> last_text l = None.
Proof.
  induction 1 as [|resp l Hresp _ IH]; simpl; [reflexivity|].
  rewrite IH, Hresp. reflexivity.
Qed.

Lemma last_text_final (l : list AssistResponse) (final : AssistResponse) :
  text_of final <> EmptyString ->
  last_text (l ++ [final]) = Some (text_of final).
Proof.
  intros Hne.
  assert (E : last_text [final] = Some (text_of final)).
  { simpl. destruct (text_of final); [contradiction|reflexivity]. }
  induction l as [|resp l IH]; [exact E|].
  simpl. rewrite IH. reflexivity.
Qed.

(** C2, as stated, fails: the turn of [Samples.stub_late] raises at the
    deadline after one message with a token was consumed, and the session
    that held no conversation state before the call holds that token after
    it. *)
Lemma failed_turn_token_unchanged_counterexample :
  let r := SampleTextAssistant.assist Samples.stub_late Samples.session0
             "what time is it" in
  snd r = Raise DEADLINE_EXCEEDED
  /\ SampleTextAssistant.conversation_state Samples.session0 = None
  /\ SampleTextAssistant.conversation_state (fst r) = Some Samples.token_A
  /\ SampleTextAssistant.conversation_state (fst r)
     <> SampleTextAssistant.conversation_state Samples.session0.
Proof. repeat split; try reflexivity. discriminate. Qed.

(** C2 (amended). If the response iterator of a turn raises (deadline,
    transport or service error), [assist] raises that exception and returns
    no reply; the stored conversation state is then the last non-empty one
    among the messages consumed before the failure, and the session is
    unchanged when no consumed message carried one. *)
Theorem failed_turn_keeps_consumed_tokens (stub : EmbeddedAssistantStub)
    (self : SampleTextAssistant.t) (text_query : string) (code : StatusCode) :
  let it := stub (SampleTextAssistant.iter_assist_requests self text_query)
                 (SampleTextAssistant.deadline self) in
  let r := SampleTextAssistant.assist stub self text_query in
  raises it = Some code ->
  snd r = Raise code
  /\ SampleTextAssistant.conversation_state (fst r) =
     overwritten (SampleTextAssistant.conversation_state self) (messages it)
  /\ (last_token (messages it) = None -> fst r = self).
Proof.
  intros it r H. subst r. split; [|split].
  - rewrite assist_completion. fold it. rewrite H. reflexivity.
  - unfold SampleTextAssistant.assist. apply for_resp_conversation_state.
  - intros HN. rewrite assist_self. fold it. rewrite HN. reflexivity.
Qed.

Lemma failed_turn_keeps_consumed_tokens_witness :
  snd (SampleTextAssistant.assist Samples.stub_late Samples.session0 "hello")
  = Raise DEADLINE_EXCEEDED
  /\ SampleTextAssistant.conversation_state
       (fst (SampleTextAssistant.assist Samples.stub_late Samples.session0
               "hello"))
     = Some Samples.token_A.
Proof.
  destruct (failed_turn_keeps_consumed_tokens Samples.stub_late
              Samples.session0 "hello" DEADLINE_EXCEEDED eq_refl)
    as (R & C & _).
  split; [exact R | exact C].
Defined.

(** C4 (stream draining). When only the last of the messages of a completed
    response stream carries display text, [assist] returns that text. In the
    loop, a message without display text leaves the recorded candidate as it
    is and a message with display text replaces it, so that a completed turn
    returns the last non-empty display text of its stream. *)
Theorem stream_draining :
  (forall (stub : EmbeddedAssistantStub) (self : SampleTextAssistant.t)
          (text_query : string) (before : list AssistResponse)
          (final : AssistResponse),
      stub (SampleTextAssistant.iter_assist_requests self text_query)
           (SampleTextAssistant.deadline self)
      = yield_all (before ++ [final]) StopIteration ->
      Forall (fun resp => text_of resp = EmptyString) before ->
      text_of final <> EmptyString ->
      snd (SampleTextAssistant.assist stub self text_query)
      = Return (Some (text_of final)))
  /\ (forall (resp : AssistResponse) (self : SampleTextAssistant.t)
             (candidate : option string),
        text_of resp = EmptyString ->
        snd (SampleTextAssistant.loop_body resp self candidate) = candidate)
  /\ (forall (resp : AssistResponse) (self : SampleTextAssistant.t)
             (candidate : option string),
        text_of resp <> EmptyString ->
        snd (SampleTextAssistant.loop_body resp self candidate)
        = Some (text_of resp))
  /\ (forall (stub : EmbeddedAssistantStub) (self : SampleTextAssistant.t)
             (text_query : string),
        raises (stub (SampleTextAssistant.iter_assist_requests self text_query)
                     (SampleTextAssistant.deadline self)) = None ->
        snd (SampleTextAssistant.assist stub self text_query)
        = Return (last_text
                    (messages
                       (stub (SampleTextAssistant.iter_assist_requests
                                self text_query)
                             (SampleTextAssistant.deadline self))))).
Proof.
  split; [|split; [|split]].
  - intros stub self q before final Hit _ Hfinal.
    rewrite assist_completion, Hit, raises_yield_all, messages_yield_all.
    cbn [raises messages]. rewrite app_nil_r, last_text_final by assumption.
    reflexivity.
  - intros resp self candidate H. unfold SampleTextAssistant.loop_body.
    cbn [snd]. fold (text_of resp). rewrite H. reflexivity.
  - intros resp self candidate H. unfold SampleTextAssistant.loop_body.
    cbn [snd]. fold (text_of resp).
    destruct (text_of resp); [contradiction|reflexivity].
  - intros stub self q H. rewrite assist_completion, H. reflexivity.
Qed.

Lemma stream_draining_witness :
  snd (SampleTextAssistant.assist Samples.stub_two Samples.session0 "go")
  = Return (Some "done").
Proof.
  apply (proj1 stream_draining Samples.stub_two Samples.session0 "go"
           [Samples.response Samples.token_A ""]
           (Samples.response Samples.token_B "done")).
  - reflexivity.
  - repeat constructor.
  - discriminate.
Defined.

(** C8 (empty reply). A completed response stream in which no message has
    its display text set makes [assist] return [None]: it does not raise,
    and the value is not the empty string. *)
Theorem no_display_text_no_reply (stub : EmbeddedAssistantStub)
    (self : SampleTextAssistant.t) (text_query : string) :
  let it := stub (SampleTextAssistant.iter_assist_requests self text_query)
                 (SampleTextAssistant.deadline self) in
  let r := SampleTextAssistant.assist stub self text_query in
  raises it = None ->
  Forall (fun resp => text_of resp = EmptyString) (messages it) ->
  snd r = Return None
  /\ snd r <> Return (Some EmptyString)
  /\ (forall code : StatusCode, snd r <> Raise code).
Proof.
  intros it r Hdone Htext.
  assert (E : snd r = Return None).
  { subst r. rewrite assist_completion. fold it.
    rewrite Hdone, (last_text_absent _ Htext). reflexivity. }
  rewrite E. repeat split; intros; discriminate.
Qed.

Lemma no_display_text_no_reply_witness :
  snd (SampleTextAssistant.assist Samples.stub_silent Samples.session0 "hm")
  = Return None.
Proof.
  apply (no_display_text_no_reply Samples.stub_silent Samples.session0 "hm").
  - reflexivity.
  - repeat constructor.
Defined.

Lemma run_turns_final (turns : list Turn) :
  forall self : SampleTextAssistant.t,
    let final := snd (run_turns self turns) in
    SampleTextAssistant.language_code final
      = SampleTextAssistant.language_code self
    /\ SampleTextAssistant.device_model_id final
      = SampleTextAssistant.device_model_id self
    /\ SampleTextAssistant.device_id final
      = SampleTextAssistant.device_id self
    /\ SampleTextAssistant.deadline final
      = SampleTextAssistant.deadline self.
Proof.
  induction turns as [|turn rest IH]; intros self; [repeat split|].
  rewrite run_turns_cons. cbv zeta. cbn [snd].
  destruct (IH (fst (SampleTextAssistant.for_resp
                       (turn_stub turn
                          (SampleTextAssistant.iter_assist_requests self
                             (turn_query turn))
                          (SampleTextAssistant.deadline self)) self None)))
    as (L & M & D & T).
  rewrite L, M, D, T, for_resp_self.
  destruct (last_token _); repeat split.
Qed.

(** C9 (frame). A call of [assist] changes nothing of the session but, at
    most, the conversation state: the session after the call is the session
    before it or that session with a new conversation state. Language code,
    device model id, device id and deadline are those of before the call,
    however the call ends, and after any sequence of calls they are the
    values the constructor was given. The session record is the only store
    [assist] writes. *)
Theorem assist_frame :
  (forall (stub : EmbeddedAssistantStub) (self : SampleTextAssistant.t)
          (text_query : string),
      let self' := fst (SampleTextAssistant.assist stub self text_query) in
      (self' = self
       \/ exists c : bytes,
            self' = SampleTextAssistant.set_conversation_state self c)
      /\ SampleTextAssistant.language_code self'
         = SampleTextAssistant.language_code self
      /\ SampleTextAssistant.device_model_id self'
         = SampleTextAssistant.device_model_id self
      /\ SampleTextAssistant.device_id self'
         = SampleTextAssistant.device_id self
      /\ SampleTextAssistant.deadline self'
         = SampleTextAssistant.deadline self)
  /\ (forall (lc dm di : string) (dl : Z) (turns : list Turn),
        let final :=
          snd (run_turns (SampleTextAssistant.__init__ lc dm di dl) turns) in
        SampleTextAssistant.language_code final = lc
        /\ SampleTextAssistant.device_model_id final = dm
        /\ SampleTextAssistant.device_id final = di
        /\ SampleTextAssistant.deadline final = dl).
Proof.
  split.
  - intros stub self q self'. subst self'. rewrite assist_self.
    destruct (last_token _) as [c|].
    + split; [right; exists c; reflexivity | repeat split].
    + split; [left; reflexivity | repeat split].
  - intros lc dm di dl turns.
    exact (run_turns_final turns (SampleTextAssistant.__init__ lc dm di dl)).
Qed.

(** * Properties of the message handler *)

Lemma prefix_app (p s : string) : String.prefix p (p ++ s)%string = true.
Proof.
  induction p as [|c p IH]; simpl.
  - destruct s; reflexivity.
  - destruct (ascii_dec c c) as [_|N]; [exact IH | now elim N].
Qed.

Lemma append_assoc (s1 s2 s3 : string) :
  ((s1 ++ s2) ++ s3 = s1 ++ (s2 ++ s3))%string.
Proof. induction s1 as [|c s1 IH]; simpl; [reflexivity | now rewrite IH]. Qed.

Lemma partition_space_app (w rest : string) :
  has_space w = false ->
  partition_space (w ++ " " ++ rest)%string = (w, Some rest).
Proof.
  induction w as [|c w IH]; simpl; [reflexivity|].
  intros H. apply orb_false_elim in H as [Hc Hw].
  specialize (IH Hw). simpl in IH. rewrite Hc, IH. reflexivity.
Qed.

Lemma partition_space_none (s : string) :
  has_space s = false -> partition_space s = (s, None).
Proof.
  induction s as [|c s IH]; simpl; [reflexivity|].
  intros H. apply orb_false_elim in H as [Hc Hs].
  rewrite Hc, (IH Hs). reflexivity.
Qed.

(** The loop over the authorized users asks for each of them in turn and
    neither touches the session nor raises. *)
Lemma for_user_id_run (c : Chat) (ids : list Z) :
  forall (b : bool) (a : SampleTextAssistant.t),
    exists b' : bool,
      for_user_id c ids b a = (map get_member ids, a, Return b').
Proof.
  induction ids as [|u ids IH]; intros b a.
  - exists b. reflexivity.
  - destruct (IH (if members c u then false else b) a) as [b' E].
    exists b'. cbn [for_user_id]. unfold bind, call. rewrite E. reflexivity.
Qed.

Lemma queries_app (t1 t2 : list Call) :
  queries (t1 ++ t2) = queries t1 ++ queries t2.
Proof.
  induction t1 as [|[q|o|u|] t1 IH]; simpl; rewrite ?IH; reflexivity.
Qed.

Lemma queries_get_member (ids : list Z) : queries (map get_member ids) = [].
Proof. induction ids; simpl; auto. Qed.

(** The branch of the handler for chats that are not private. *)
Lemma assist_mention_ignored (cfg : Settings) (stub : EmbeddedAssistantStub)
    (bot : Bot) (message : Message) (a : SampleTextAssistant.t) :
  String.eqb (chat_type (chat message)) "private" = false ->
  has_space (text message) = false ->
  assist cfg stub bot message a = ([], a, Return tt).
Proof.
  intros Hp Hs. unfold assist, split_space_1.
  rewrite Hp, (partition_space_none _ Hs).
  destruct (startswith _ _); reflexivity.
Qed.

Lemma assist_mention_queries (cfg : Settings) (stub : EmbeddedAssistantStub)
    (bot : Bot) (message : Message) (a : SampleTextAssistant.t)
    (w rest : string) :
  String.eqb (chat_type (chat message)) "private" = false ->
  startswith (text message) ("@" ++ username bot)%string = true ->
  partition_space (text message) = (w, Some rest) ->
  queries (calls (assist cfg stub bot message a)) = [rest].
Proof.
  intros Hp Hm Hs. unfold assist, split_space_1. rewrite Hp, Hm, Hs.
  cbn [List.length Nat.ltb Nat.leb nth].
  unfold bind at 1. unfold call_assistant.
  destruct (SampleTextAssistant.assist stub a rest) as [a' [display_text|code]];
    [|reflexivity].
  destruct (negb _ && negb _).
  - unfold bind, call.
    destruct (for_user_id_run (chat message) (AUTHORIZED_USER_IDS cfg) true a')
      as [b' E].
    rewrite E. unfold calls.
    destruct b'; cbn -[queries app]; rewrite !queries_app, queries_get_member;
      reflexivity.
  - destruct display_text; reflexivity.
Qed.

(** A private chat with a sender who is not authorized: one fixed reply, the
    session is not touched. *)
Lemma assist_private_unauthorized (cfg : Settings)
    (stub : EmbeddedAssistantStub) (bot : Bot) (message : Message)
    (a : SampleTextAssistant.t) :
  chat_type (chat message) = "private" ->
  contains (AUTHORIZED_USER_IDS cfg) (from_user_id message) = false ->
  assist cfg stub bot message a
  = ([reply_text (Some "Unauthorized")], a, Return tt).
Proof.
  intros Hp Hu. unfold assist. rewrite Hp, Hu. reflexivity.
Qed.

(** A private chat with an authorized sender: the whole text is the query,
    and what [assistant.assist] returns goes to [reply_text] as it is; an
    exception of the call leaves the handler before any reply. *)
Lemma assist_private_authorized (cfg : Settings)
    (stub : EmbeddedAssistantStub) (bot : Bot) (message : Message)
    (a : SampleTextAssistant.t) :
  chat_type (chat message) = "private" ->
  contains (AUTHORIZED_USER_IDS cfg) (from_user_id message) = true ->
  assist cfg stub bot message a =
  match SampleTextAssistant.assist stub a (text message) with
  | (a', Return display_text) =>
      ([assistant_assist (text message); reply_text display_text],
       a', Return tt)
  | (a', Raise code) => ([assistant_assist (text message)], a', Raise code)
  end.
Proof.
  intros Hp Hu. unfold assist. rewrite Hp, Hu, String.eqb_refl. cbn [negb].
  unfold bind, call_assistant, call.
  destruct (SampleTextAssistant.assist stub a (text message)) as [a' [d|code]];
    reflexivity.
Qed.

Example private_stranger_unauthorized :
  assist Samples.cfg Samples.stub_3pm Samples.bot Samples.private_stranger
    Samples.session0
  = ([reply_text (Some "Unauthorized")], Samples.session0, Return tt).
Proof. now apply assist_private_unauthorized. Qed.

(** C5, at a mention by a stranger in a group that is not allowed: the
    handler has invoked [assistant.assist] with the query, and only then
    answers [Unauthorized] and leaves. The session holds the token of that
    turn afterwards. *)
Theorem rejected_group_mention_reaches_assistant :
  let r := assist Samples.cfg Samples.stub_3pm Samples.bot
             Samples.group_stranger Samples.session0 in
  contains (ALLOWED_CHAT_IDS Samples.cfg)
    (chat_id (chat Samples.group_stranger)) = false
  /\ contains (AUTHORIZED_USER_IDS Samples.cfg)
       (from_user_id Samples.group_stranger) = false
  /\ calls r = [assistant_assist "hello";
                reply_text (Some "Unauthorized");
                get_member 7;
                leave]
  /\ SampleTextAssistant.conversation_state (snd (fst r))
     = Some Samples.token_X.
Proof. repeat split. Qed.

(** C6, at a private message of an authorized sender for which the
    Assistant has no display text: the handler calls [reply_text] with
    [None], where the group branch would call nothing. *)
Theorem private_no_reply_still_replies :
  calls (assist Samples.cfg Samples.stub_silent Samples.bot
           Samples.private_authorized Samples.session0)
  = [assistant_assist "what time is it"; reply_text None].
Proof. reflexivity. Qed.

(** C7, as stated, fails: the group message ["@botname "] begins with the
    mention, nothing is left of it once the mention is stripped, and the
    handler invokes [assistant.assist] with the empty query. *)
Lemma mention_empty_query_counterexample :
  startswith (text Samples.group_trailing_space)
    ("@" ++ username Samples.bot)%string = true
  /\ queries (calls (assist Samples.cfg Samples.stub_silent Samples.bot
                       Samples.group_trailing_space Samples.session0))
     = [EmptyString].
Proof. split; reflexivity. Qed.

(** C7 (amended). For a message of a chat that is not private whose text
    begins with the bot's mention, the handler cuts the text at its first
    space and invokes [assistant.assist] exactly when the text has a space,
    once, with all that follows the first space; a text without a space is
    ignored: no call is made and the session is left alone. *)
Theorem mention_query_after_first_space (cfg : Settings)
    (stub : EmbeddedAssistantStub) (bot : Bot) (message : Message)
    (a : SampleTextAssistant.t) :
  String.eqb (chat_type (chat message)) "private" = false ->
  startswith (text message) ("@" ++ username bot)%string = true ->
  (has_space (text message) = false ->
   assist cfg stub bot message a = ([], a, Return tt))
  /\ (forall w rest : string,
        has_space w = false ->
        text message = (w ++ " " ++ rest)%string ->
        queries (calls (assist cfg stub bot message a)) = [rest]).
Proof.
  intros Hp Hm. split.
  - intros Hs. now apply assist_mention_ignored.
  - intros w rest Hw Ht.
    apply (assist_mention_queries cfg stub bot message a w rest Hp Hm).
    rewrite Ht. now apply partition_space_app.
Qed.

Lemma mention_query_after_first_space_witness :
  queries (calls (assist Samples.cfg Samples.stub_3pm Samples.bot
                    Samples.group_stranger Samples.session0)) = ["hello"].
Proof.
  apply (proj2 (mention_query_after_first_space Samples.cfg Samples.stub_3pm
                  Samples.bot Samples.group_stranger Samples.session0
                  eq_refl eq_refl) "@botname" "hello"); reflexivity.
Defined.

(** C10 (prefix test). In a chat that is not private, every text that starts
    with ['@'] and the bot's handle is handled, also when the first word is
    a longer handle: the first word, up to the first space, is dropped and
    what follows the space is the query of [assistant.assist]. With the bot
    [botname], the text ["@botnameX hello"] asks ["hello"]. *)
Theorem mention_test_is_prefix_based (cfg : Settings)
    (stub : EmbeddedAssistantStub) (bot : Bot) (message : Message)
    (a : SampleTextAssistant.t) (suffix rest : string) :
  String.eqb (chat_type (chat message)) "private" = false ->
  has_space (username bot ++ suffix)%string = false ->
  text message = ("@" ++ (username bot ++ suffix) ++ " " ++ rest)%string ->
  startswith (text message) ("@" ++ username bot)%string = true
  /\ queries (calls (assist cfg stub bot message a)) = [rest]
  /\ queries (calls (assist Samples.cfg Samples.stub_3pm Samples.bot
                       Samples.group_longer_handle Samples.session0))
     = ["hello"].
Proof.
  intros Hp Hs Ht.
  assert (Hm : startswith (text message) ("@" ++ username bot)%string = true).
  { rewrite Ht. unfold startswith.
    change ("@" ++ (username bot ++ suffix) ++ " " ++ rest)%string
      with (String "@" ((username bot ++ suffix) ++ " " ++ rest))%string.
    change ("@" ++ username bot)%string with (String "@" (username bot)).
    cbn [String.prefix]. destruct (ascii_dec "@" "@") as [_|N]; [|now elim N].
    rewrite append_assoc. apply prefix_app. }
  split; [exact Hm|]. split; [|reflexivity].
  apply (assist_mention_queries cfg stub bot message a
           ("@" ++ (username bot ++ suffix))%string rest Hp Hm).
  rewrite Ht.
  change ("@" ++ (username bot ++ suffix) ++ " " ++ rest)%string
    with (("@" ++ (username bot ++ suffix)) ++ " " ++ rest)%string.
  apply partition_space_app. exact Hs.
Qed.

Lemma mention_test_is_prefix_based_witness :
  queries (calls (assist Samples.cfg Samples.stub_silent Samples.bot
                    Samples.group_longer_handle Samples.session0))
  = ["hello"].
Proof.
  apply (mention_test_is_prefix_based Samples.cfg Samples.stub_silent
           Samples.bot Samples.group_longer_handle Samples.session0
           "X" "hello"); reflexivity.
Defined.

(** * Further properties of the conversation session *)


(** After a sequence of turns the stored conversation state is the one of
    before, overwritten by all that arrived. *)
Lemma run_turns_final_state (turns : list Turn) :
  forall self : SampleTextAssistant.t,
    SampleTextAssistant.conversation_state (snd (run_turns self turns)) =
    overwritten (SampleTextAssistant.conversation_state self)
      (arrived (fst (run_turns self turns))).
Proof.
  induction turns as [|turn rest IH]; intros self; [reflexivity|].
  rewrite run_turns_cons. cbv zeta. cbn [fst snd].
  rewrite IH, for_resp_conversation_state.
  change (arrived (?e :: ?l)) with (messages (received e) ++ arrived l).
  cbn [received]. rewrite overwritten_app. reflexivity.
Qed.



(** X1. After any sequence of turns on a session fresh from the
    constructor, the stored conversation state is the last non-empty one
    among all the messages that arrived, in completed and in failed turns
    alike, and it is still [None] when there was none. *)
Theorem stored_state_is_last_arrived (lc dm di : string) (dl : Z)
    (turns : list Turn) :
  let r := run_turns (SampleTextAssistant.__init__ lc dm di dl) turns in
  SampleTextAssistant.conversation_state (snd r)
  = last_token (arrived (fst r)).
Proof.
  cbv zeta. rewrite run_turns_final_state. unfold overwritten.
  cbn [SampleTextAssistant.__init__ SampleTextAssistant.conversation_state].
  destruct (last_token _); reflexivity.
Qed.

(** X2. The session never comes to store the empty bytes: a response whose
    conversation state is empty does not clear what is stored. From a
    session that holds no empty state, no sequence of turns leads to one
    that does. *)
Theorem stored_state_never_empty (self : SampleTextAssistant.t)
    (turns : list Turn) :
  SampleTextAssistant.conversation_state self <> Some [] ->
  SampleTextAssistant.conversation_state (snd (run_turns self turns))
  <> Some [].
Proof.
  intros H. rewrite run_turns_final_state. unfold overwritten.
  destruct (last_token _) as [c|] eqn:E; [|exact H].
  apply last_token_truthy in E. intros N. injection N as ->. discriminate.
Qed.

Lemma stored_state_never_empty_witness :
  SampleTextAssistant.conversation_state
    (snd (run_turns Samples.session0 Samples.two_turns)) <> Some [].
Proof.
  apply (stored_state_never_empty Samples.session0 Samples.two_turns).
  discriminate.
Defined.



(** * Further properties of the message handler *)

(** The loop over the authorized users: every one of them is asked for, and
    the answer is to leave when none of them is a member. *)
Lemma for_user_id_result (c : Chat) (ids : list Z) :
  forall (b : bool) (a : SampleTextAssistant.t),
    for_user_id c ids b a
    = (map get_member ids, a, Return (b && negb (existsb (members c) ids))).
Proof.
  induction ids as [|u ids IH]; intros b a.
  - cbn. rewrite andb_true_r. reflexivity.
  - cbn [for_user_id]. unfold bind, call. rewrite IH. cbn [app map existsb].
    destruct (members c u), b; reflexivity.
Qed.

Lemma partition_space_spec (s : string) :
  forall w : string,
    (forall rest : string,
        partition_space s = (w, Some rest) ->
        s = (w ++ " " ++ rest)%string /\ has_space w = false)
    /\ (partition_space s = (w, None) -> s = w /\ has_space s = false).
Proof.
  induction s as [|c s IH]; intros w; cbn [partition_space].
  - split; [discriminate|]. intros H; injection H as <-. split; reflexivity.
  - destruct (Ascii.eqb c " ") eqn:Ec.
    + split; [|discriminate].
      intros rest H; injection H as <- <-.
      apply Ascii.eqb_eq in Ec. subst c. split; reflexivity.
    + destruct (partition_space s) as [w' tl] eqn:Ep. split.
      * intros rest H; injection H as <- ->.
        destruct (proj1 (IH w') rest eq_refl) as [-> Hw].
        cbn [has_space]. rewrite Ec, Hw. split; reflexivity.
      * intros H; injection H as <- ->.
        destruct (proj2 (IH w') eq_refl) as [-> Hs].
        cbn [has_space]. rewrite Ec, Hs. split; reflexivity.
Qed.

(** What a run of the handler comes to, branch by branch. *)
Lemma assist_run (cfg : Settings) (stub : EmbeddedAssistantStub) (bot : Bot)
    (message : Message) (a : SampleTextAssistant.t) :
  assist cfg stub bot message a =
  if String.eqb (chat_type (chat message)) "private" then
    if contains (AUTHORIZED_USER_IDS cfg) (from_user_id message) then
      match SampleTextAssistant.assist stub a (text message) with
      | (a', Return display_text) =>
          ([assistant_assist (text message); reply_text display_text],
           a', Return tt)
      | (a', Raise code) =>
          ([assistant_assist (text message)], a', Raise code)
      end
    else ([reply_text (Some "Unauthorized")], a, Return tt)
  else if startswith (text message) ("@" ++ username bot)%string then
    match partition_space (text message) with
    | (_, None) => ([], a, Return tt)
    | (_, Some rest) =>
        match SampleTextAssistant.assist stub a rest with
        | (a', Raise code) => ([assistant_assist rest], a', Raise code)
        | (a', Return display_text) =>
            if negb (contains (ALLOWED_CHAT_IDS cfg) (chat_id (chat message)))
               && negb (contains (AUTHORIZED_USER_IDS cfg)
                          (from_user_id message))
            then
              (assistant_assist rest
                 :: reply_text (Some "Unauthorized")
                 :: map get_member (AUTHORIZED_USER_IDS cfg)
                 ++ (if existsb (members (chat message))
                          (AUTHORIZED_USER_IDS cfg)
                     then [] else [leave]),
               a', Return tt)
            else
              (assistant_assist rest
                 :: match display_text with
                    | Some t => [reply_text (Some t)]
                    | None => []
                    end,
               a', Return tt)
        end
    end
  else ([], a, Return tt).
Proof.
  unfold assist, split_space_1.
  destruct (String.eqb (chat_type (chat message)) "private").
  - destruct (contains (AUTHORIZED_USER_IDS cfg) (from_user_id message));
      [|reflexivity].
    cbn [negb]. unfold bind, call_assistant, call.
    destruct (SampleTextAssistant.assist stub a (text message))
      as [a' [d|code]]; reflexivity.
  - destruct (startswith (text message) ("@" ++ username bot)%string);
      [|reflexivity].
    destruct (partition_space (text message)) as [w [rest|]]; [|reflexivity].
    cbn [List.length Nat.ltb Nat.leb nth].
    unfold bind at 1. unfold call_assistant.
    destruct (SampleTextAssistant.assist stub a rest) as [a' [d|code]];
      [|reflexivity].
    destruct (negb _ && negb _).
    + unfold bind, call. rewrite for_user_id_result. cbn [andb negb app].
      destruct (existsb (members (chat message)) (AUTHORIZED_USER_IDS cfg));
        unfold ret; cbn [negb app]; rewrite ?app_nil_r; reflexivity.
    + destruct d; reflexivity.
Qed.

(** The queries of a run of the handler. *)
Lemma assist_queries (cfg : Settings) (stub : EmbeddedAssistantStub)
    (bot : Bot) (message : Message) (a : SampleTextAssistant.t) :
  queries (calls (assist cfg stub bot message a)) =
  if String.eqb (chat_type (chat message)) "private" then
    if contains (AUTHORIZED_USER_IDS cfg) (from_user_id message)
    then [text message] else []
  else if startswith (text message) ("@" ++ username bot)%string then
    match partition_space (text message) with
    | (_, Some rest) => [rest]
    | (_, None) => []
    end
  else [].
Proof.
  rewrite assist_run. unfold calls.
  destruct (String.eqb _ "private").
  - destruct (contains _ _); [|reflexivity].
    destruct (SampleTextAssistant.assist _ _ _) as [a' [d|c]]; reflexivity.
  - destruct (startswith _ _); [|reflexivity].
    destruct (partition_space _) as [w [rest|]]; [|reflexivity].
    destruct (SampleTextAssistant.assist _ _ _) as [a' [d|c]]; [|reflexivity].
    destruct (negb _ && negb _).
    + cbn [fst queries]. rewrite queries_app, queries_get_member.
      destruct (existsb _ _); reflexivity.
    + destruct d; reflexivity.
Qed.

(** The session and the end of a run of the handler that asked [q]. *)
Lemma assist_asked (cfg : Settings) (stub : EmbeddedAssistantStub)
    (bot : Bot) (message : Message) (a : SampleTextAssistant.t) (q : string) :
  queries (calls (assist cfg stub bot message a)) = [q] ->
  snd (fst (assist cfg stub bot message a))
  = fst (SampleTextAssistant.assist stub a q)
  /\ snd (assist cfg stub bot message a)
     = match snd (SampleTextAssistant.assist stub a q) with
       | Return _ => Return tt
       | Raise code => Raise code
       end
  /\ (forall code : StatusCode,
        snd (SampleTextAssistant.assist stub a q) = Raise code ->
        calls (assist cfg stub bot message a) = [assistant_assist q]).
Proof.
  rewrite assist_queries, assist_run. unfold calls.
  destruct (String.eqb _ "private").
  - destruct (contains _ _); [|discriminate].
    intros H; injection H as <-.
    destruct (SampleTextAssistant.assist _ _ _) as [a' [d|c]]; cbn;
      repeat split; try discriminate; reflexivity.
  - destruct (startswith _ _); [|discriminate].
    destruct (partition_space _) as [w [rest|]]; [|discriminate].
    intros H; injection H as <-.
    destruct (SampleTextAssistant.assist _ _ _) as [a' [d|c]].
    + destruct (negb _ && negb _); cbn; repeat split; discriminate.
    + cbn; repeat split; reflexivity.
Qed.

(** X4. In a chat that is not private, a message whose text does not start
    with ['@'] and the bot's handle is ignored, also when it mentions the bot
    further on: the handler makes no call, leaves the session as it is and
    returns. *)
Theorem unaddressed_group_message_ignored (cfg : Settings)
    (stub : EmbeddedAssistantStub) (bot : Bot) (message : Message)
    (a : SampleTextAssistant.t) :
  String.eqb (chat_type (chat message)) "private" = false ->
  startswith (text message) ("@" ++ username bot)%string = false ->
  assist cfg stub bot message a = ([], a, Return tt).
Proof. intros Hp Hm. rewrite assist_run, Hp, Hm. reflexivity. Qed.

Lemma unaddressed_group_message_ignored_witness :
  assist Samples.cfg Samples.stub_3pm Samples.bot Samples.group_chatter
    Samples.session0 = ([], Samples.session0, Return tt).
Proof.
  apply (unaddressed_group_message_ignored Samples.cfg Samples.stub_3pm
           Samples.bot Samples.group_chatter Samples.session0);
    reflexivity.
Defined.

(** X5. A mention in a chat that is allowed, or by a sender who is
    authorized, with a query after the first word: the handler asks the
    Assistant and calls [reply_text] once with the display text when there
    is one, and makes no further call when there is none; it asks for no
    member and does not leave. *)
Theorem allowed_group_mention_relays (cfg : Settings)
    (stub : EmbeddedAssistantStub) (bot : Bot) (message : Message)
    (a a' : SampleTextAssistant.t) (w rest : string)
    (display_text : option string) :
  String.eqb (chat_type (chat message)) "private" = false ->
  startswith (text message) ("@" ++ username bot)%string = true ->
  has_space w = false ->
  text message = (w ++ " " ++ rest)%string ->
  contains (ALLOWED_CHAT_IDS cfg) (chat_id (chat message))
  || contains (AUTHORIZED_USER_IDS cfg) (from_user_id message) = true ->
  SampleTextAssistant.assist stub a rest = (a', Return display_text) ->
  assist cfg stub bot message a
  = (assistant_assist rest
       :: match display_text with
          | Some t => [reply_text (Some t)]
          | None => []
          end,
     a', Return tt).
Proof.
  intros Hp Hm Hw Ht Hok Ha.
  rewrite assist_run, Hp, Hm, Ht, (partition_space_app _ _ Hw), Ha.
  destruct (contains (ALLOWED_CHAT_IDS cfg) _);
    destruct (contains (AUTHORIZED_USER_IDS cfg) _);
    try discriminate; reflexivity.
Qed.

Lemma allowed_group_mention_relays_witness :
  calls (assist Samples.cfg Samples.stub_silent Samples.bot
           Samples.group_allowed_member Samples.session0)
  = [assistant_assist "hello"].
Proof.
  rewrite (allowed_group_mention_relays Samples.cfg Samples.stub_silent
             Samples.bot Samples.group_allowed_member Samples.session0
             Samples.session0 "@botname" "hello" None
             eq_refl eq_refl eq_refl eq_refl eq_refl eq_refl).
  reflexivity.
Defined.



(** X7. When the turn of the Assistant raises, the handler raises the same
    exception at once, in the private branch and in the group branch: after
    the call of [assistant.assist] it calls nothing, so a rejected sender
    gets no [Unauthorized] and the chat is not left; the session keeps what
    the failed turn stored. *)
Theorem assistant_failure_leaves_handler (cfg : Settings)
    (stub : EmbeddedAssistantStub) (bot : Bot) (message : Message)
    (a : SampleTextAssistant.t) (q : string) (code : StatusCode) :
  queries (calls (assist cfg stub bot message a)) = [q] ->
  snd (SampleTextAssistant.assist stub a q) = Raise code ->
  assist cfg stub bot message a
  = ([assistant_assist q], fst (SampleTextAssistant.assist stub a q),
     Raise code).
Proof.
  intros Hq Hr.
  destruct (assist_asked cfg stub bot message a q Hq) as (S & R & C).
  rewrite Hr in R. specialize (C code Hr). unfold calls in C.
  destruct (assist cfg stub bot message a) as [[tr a'] r].
  cbn [fst snd] in *. subst. reflexivity.
Qed.

Lemma assistant_failure_leaves_handler_witness :
  assist Samples.cfg Samples.stub_late Samples.bot Samples.group_stranger
    Samples.session0
  = ([assistant_assist "hello"],
     SampleTextAssistant.set_conversation_state Samples.session0
       Samples.token_A,
     Raise DEADLINE_EXCEEDED).
Proof.
  exact (assistant_failure_leaves_handler Samples.cfg Samples.stub_late
           Samples.bot Samples.group_stranger Samples.session0 "hello"
           DEADLINE_EXCEEDED eq_refl eq_refl).
Defined.


(** X9. The query that the handler passes on is read off the text alone:
    in a private chat it is the whole text; in any other chat the text
    starts with ['@'] and the bot's handle and is a first word without a
    space, one space, and the query, which is passed on as it stands,
    further spaces included. *)
Theorem query_is_text_after_first_word (cfg : Settings)
    (stub : EmbeddedAssistantStub) (bot : Bot) (message : Message)
    (a : SampleTextAssistant.t) (q : string) :
  In q (queries (calls (assist cfg stub bot message a))) ->
  if String.eqb (chat_type (chat message)) "private"
  then q = text message
  else startswith (text message) ("@" ++ username bot)%string = true
       /\ exists w : string,
            has_space w = false
            /\ text message = (w ++ " " ++ q)%string.
Proof.
  rewrite assist_queries.
  destruct (String.eqb _ "private").
  - destruct (contains _ _); [|intros []].
    intros [<-|[]]. reflexivity.
  - destruct (startswith _ _); [|intros []].
    destruct (partition_space (text message)) as [w [rest|]] eqn:Ep;
      [|intros []].
    intros [<-|[]]. split; [reflexivity|]. exists w.
    destruct (proj1 (partition_space_spec (text message) w) rest Ep)
      as [Ht Hw].
    split; assumption.
Qed.

Lemma query_is_text_after_first_word_witness :
  startswith "@botnameX hello" "@botname" = true
  /\ exists w : string,
       has_space w = false /\ "@botnameX hello" = (w ++ " " ++ "hello")%string.
Proof.
  apply (query_is_text_after_first_word Samples.cfg Samples.stub_silent
           Samples.bot Samples.group_longer_handle Samples.session0 "hello").
  left. reflexivity.
Defined.

(** X10. In a private chat the sender's identifier alone decides: the list
    of allowed chats and the bot's handle play no part. A sender who is not
    authorized gets the one reply [Unauthorized] and the session is not
    touched; for an authorized sender the whole text is the query and a
    display text that comes back is the one reply. No member is asked for
    and no chat is left. *)
Theorem private_chat_policy (cfg : Settings) (stub : EmbeddedAssistantStub)
    (bot : Bot) (message : Message) (a : SampleTextAssistant.t) :
  chat_type (chat message) = "private" ->
  (forall (allowed : list Z) (bot' : Bot),
      assist cfg stub bot message a
      = assist {| ALLOWED_CHAT_IDS := allowed;
                  AUTHORIZED_USER_IDS := AUTHORIZED_USER_IDS cfg |}
          stub bot' message a)
  /\ (contains (AUTHORIZED_USER_IDS cfg) (from_user_id message) = false ->
      assist cfg stub bot message a
      = ([reply_text (Some "Unauthorized")], a, Return tt))
  /\ (contains (AUTHORIZED_USER_IDS cfg) (from_user_id message) = true ->
      forall (a' : SampleTextAssistant.t) (t : string),
        SampleTextAssistant.assist stub a (text message)
        = (a', Return (Some t)) ->
        assist cfg stub bot message a
        = ([assistant_assist (text message); reply_text (Some t)],
           a', Return tt)).
Proof.
  intros Hp. split; [|split].
  - intros allowed bot'. rewrite !assist_run, Hp. reflexivity.
  - intros Hu. now apply assist_private_unauthorized.
  - intros Hu a' t Ha.
    rewrite (assist_private_authorized cfg stub bot message a Hp Hu), Ha.
    reflexivity.
Qed.

Lemma private_chat_policy_witness :
  assist {| ALLOWED_CHAT_IDS := [9]; AUTHORIZED_USER_IDS := [7] |}
    Samples.stub_3pm Samples.bot Samples.private_stranger Samples.session0
  = ([reply_text (Some "Unauthorized")], Samples.session0, Return tt).
Proof.
  exact (proj1 (proj2 (private_chat_policy
                         {| ALLOWED_CHAT_IDS := [9];
                            AUTHORIZED_USER_IDS := [7] |}
                         Samples.stub_3pm Samples.bot
                         Samples.private_stranger Samples.session0 eq_refl))
           eq_refl).
Defined.

(** X11. The one session serves every chat. When the handler has asked the
    Assistant for one message and that turn received a non-empty
    conversation state, the next message for which it asks, from whatever
    chat and sender, has that conversation state in its request; the run of
    the handler is the loop over the answer to that very request. *)
Theorem conversation_state_shared_across_chats (cfg : Settings) (bot : Bot)
    (stub1 stub2 : EmbeddedAssistantStub) (m1 m2 : Message)
    (a : SampleTextAssistant.t) (q1 q2 : string) (c : bytes) :
  let a1 := snd (fst (assist cfg stub1 bot m1 a)) in
  let req2 := SampleTextAssistant.iter_assist_requests a1 q2 in
  queries (calls (assist cfg stub1 bot m1 a)) = [q1] ->
  last_token
    (messages (stub1 (SampleTextAssistant.iter_assist_requests a q1)
                     (SampleTextAssistant.deadline a))) = Some c ->
  queries (calls (assist cfg stub2 bot m2 a1)) = [q2] ->
  sent_token req2 = c
  /\ snd (fst (assist cfg stub2 bot m2 a1))
     = fst (SampleTextAssistant.for_resp
              (stub2 req2 (SampleTextAssistant.deadline a1)) a1 None).
Proof.
  intros a1 req2 H1 Hc H2.
  destruct (assist_asked cfg stub1 bot m1 a q1 H1) as (S1 & _ & _).
  destruct (assist_asked cfg stub2 bot m2 a1 q2 H2) as (S2 & _ & _).
  split; [|exact S2].
  subst req2. rewrite sent_token_request.
  fold a1 in S1. rewrite S1, assist_self, Hc. reflexivity.
Qed.

Lemma conversation_state_shared_across_chats_witness :
  sent_token
    (SampleTextAssistant.iter_assist_requests
       (snd (fst (assist Samples.cfg Samples.stub_3pm Samples.bot
                    Samples.private_authorized Samples.session0)))
       "hello") = Samples.token_X.
Proof.
  exact (proj1 (conversation_state_shared_across_chats Samples.cfg
                  Samples.bot Samples.stub_3pm Samples.stub_silent
                  Samples.private_authorized Samples.group_stranger
                  Samples.session0 "what time is it" "hello"
                  Samples.token_X eq_refl eq_refl eq_refl)).
Defined.

Lemma assist_same_configuration (stub : EmbeddedAssistantStub)
    (a : SampleTextAssistant.t) (q : string) :
  same_configuration a (fst (SampleTextAssistant.assist stub a q)).
Proof.
  unfold same_configuration. rewrite assist_self.
  destruct (last_token _); repeat split.
Qed.

Lemma in_get_member (c : Call) (ids : list Z) :
  In c (map get_member ids) -> exists u : Z, c = get_member u.
Proof.
  intros H. apply in_map_iff in H as (u & <- & _). now exists u.
Qed.

(** X15. The handler changes nothing of the shared session but, through
    the turn it runs, the conversation state: language code, device model
    id, device id and deadline are the same after every message, whatever
    the chat, the sender and the end of the turn. *)
Theorem handler_keeps_configuration (cfg : Settings)
    (stub : EmbeddedAssistantStub) (bot : Bot) (message : Message)
    (a : SampleTextAssistant.t) :
  same_configuration a (snd (fst (assist cfg stub bot message a))).
Proof.
  assert (R : same_configuration a a) by (repeat split).
  rewrite assist_run.
  destruct (String.eqb _ "private").
  - destruct (contains _ _); [|exact R].
    pose proof (assist_same_configuration stub a (text message)) as F.
    destruct (SampleTextAssistant.assist _ _ _) as [a' [d|c]]; exact F.
  - destruct (startswith _ _); [|exact R].
    destruct (partition_space _) as [w [rest|]]; [|exact R].
    pose proof (assist_same_configuration stub a rest) as F.
    destruct (SampleTextAssistant.assist _ _ _) as [a' [d|c]]; [|exact F].
    destruct (negb _ && negb _); exact F.
Qed.

(** X16. The bot leaves a chat only on a rejected mention: when the
    handler calls [leave], the chat is not private and not allowed, the
    sender is not authorized, no authorized user is a member of the chat,
    the turn of the Assistant has completed and [Unauthorized] has been
    replied. *)
Theorem leave_only_when_rejected (cfg : Settings)
    (stub : EmbeddedAssistantStub) (bot : Bot) (message : Message)
    (a : SampleTextAssistant.t) :
  In leave (calls (assist cfg stub bot message a)) ->
  String.eqb (chat_type (chat message)) "private" = false
  /\ contains (ALLOWED_CHAT_IDS cfg) (chat_id (chat message)) = false
  /\ contains (AUTHORIZED_USER_IDS cfg) (from_user_id message) = false
  /\ existsb (members (chat message)) (AUTHORIZED_USER_IDS cfg) = false
  /\ In (reply_text (Some "Unauthorized"))
       (calls (assist cfg stub bot message a))
  /\ snd (assist cfg stub bot message a) = Return tt.
Proof.
  rewrite assist_run. unfold calls.
  destruct (String.eqb _ "private").
  - destruct (contains _ _).
    + destruct (SampleTextAssistant.assist _ _ _) as [a' [d|c]]; cbn;
        intuition discriminate.
    + cbn; intuition discriminate.
  - destruct (startswith _ _); [|intros []].
    destruct (partition_space _) as [w [rest|]]; [|intros []].
    destruct (SampleTextAssistant.assist _ _ _) as [a' [d|c]];
      [|cbn; intuition discriminate].
    destruct (contains (ALLOWED_CHAT_IDS cfg) _);
      [destruct d; cbn; intuition discriminate|].
    destruct (contains (AUTHORIZED_USER_IDS cfg) _);
      [destruct d; cbn; intuition discriminate|].
    cbn [negb andb fst snd].
    destruct (existsb _ _).
    + rewrite app_nil_r. intros [H|[H|H]]; try discriminate.
      apply in_get_member in H as [u H]. discriminate.
    + intros _. repeat split. right. left. reflexivity.
Qed.

Lemma leave_only_when_rejected_witness :
  existsb (members (chat Samples.group_stranger))
    (AUTHORIZED_USER_IDS Samples.cfg) = false.
Proof.
  refine (proj1 (proj2 (proj2 (proj2
            (leave_only_when_rejected Samples.cfg Samples.stub_3pm
               Samples.bot Samples.group_stranger Samples.session0 _))))).
  right. right. right. left. reflexivity.
Defined.

(** X17. Whatever the handler replies is [Unauthorized] or what the turn
    of the Assistant for this very message returned: no text of another
    turn and no text of its own making is sent. *)
Theorem replies_come_from_the_turn (cfg : Settings)
    (stub : EmbeddedAssistantStub) (bot : Bot) (message : Message)
    (a : SampleTextAssistant.t) (reply : option string) :
  In (reply_text reply) (calls (assist cfg stub bot message a)) ->
  reply = Some "Unauthorized"
  \/ exists (q : string) (a' : SampleTextAssistant.t),
       queries (calls (assist cfg stub bot message a)) = [q]
       /\ SampleTextAssistant.assist stub a q = (a', Return reply).
Proof.
  rewrite assist_queries, assist_run. unfold calls.
  destruct (String.eqb _ "private").
  - destruct (contains _ _).
    + destruct (SampleTextAssistant.assist stub a (text message))
        as [a' [d|c]] eqn:E; cbn.
      * intros [H|[H|[]]]; [discriminate|]. injection H as ->.
        right. exists (text message), a'. split; [reflexivity|exact E].
      * intros [H|[]]. discriminate.
    + cbn. intros [H|[]]. injection H as <-. left. reflexivity.
  - destruct (startswith _ _); [|intros []].
    destruct (partition_space _) as [w [rest|]]; [|intros []].
    destruct (SampleTextAssistant.assist stub a rest) as [a' [d|c]] eqn:E;
      [|cbn; intros [H|[]]; discriminate].
    destruct (negb _ && negb _); cbn [fst].
    + intros [H|[H|H]]; [discriminate| |].
      * injection H as <-. left. reflexivity.
      * exfalso. apply in_app_or in H as [H|H].
        -- apply in_get_member in H as [u H]. discriminate.
        -- destruct (existsb _ _); [destruct H|].
           destruct H as [H|[]]. discriminate.
    + destruct d as [t|]; cbn.
      * intros [H|[H|[]]]; [discriminate|]. injection H as <-.
        right. exists rest, a'. split; [reflexivity|exact E].
      * intros [H|[]]. discriminate.
Qed.

Lemma replies_come_from_the_turn_witness :
  Some "It's 3pm" = Some "Unauthorized"
  \/ exists (q : string) (a' : SampleTextAssistant.t),
       queries (calls (assist Samples.cfg Samples.stub_3pm Samples.bot
                         Samples.group_allowed_member Samples.session0))
       = [q]
       /\ SampleTextAssistant.assist Samples.stub_3pm Samples.session0 q
          = (a', Return (Some "It's 3pm")).
Proof.
  apply (replies_come_from_the_turn Samples.cfg Samples.stub_3pm Samples.bot
           Samples.group_allowed_member Samples.session0 (Some "It's 3pm")).
  right. left. reflexivity.
Defined.

(** * The identifier lists of the environment *)


Lemma split_char_no_sep (sep : ascii) (s : string) :
  has_char sep s = false -> split_char sep s = [s].
Proof.
  induction s as [|c s IH]; cbn [has_char split_char]; [reflexivity|].
  intros H. apply orb_false_elim in H as [Hc Hs].
  rewrite Hc, (IH Hs). reflexivity.
Qed.

Lemma split_char_app (sep : ascii) (p s : string) :
  has_char sep p = false ->
  split_char sep (p ++ String sep s)%string = p :: split_char sep s.
Proof.
  induction p as [|c p IH]; cbn [has_char append split_char].
  - intros _. rewrite Ascii.eqb_refl. reflexivity.
  - intros H. apply orb_false_elim in H as [Hc Hp].
    rewrite Hc, (IH Hp). reflexivity.
Qed.


Lemma split_char_concat (sep : ascii) (pieces : list string) :
  pieces <> [] ->
  Forall (fun p => has_char sep p = false) pieces ->
  split_char sep (String.concat (String sep EmptyString) pieces) = pieces.
Proof.
  induction pieces as [|p pieces IH]; [congruence|].
  intros _ H. inversion H as [|p' l Hp Hrest]; subst.
  destruct pieces as [|p2 pieces].
  - cbn [String.concat]. now apply split_char_no_sep.
  - change (String.concat (String sep EmptyString) (p :: p2 :: pieces))
      with (p ++ String sep
                   (String.concat (String sep EmptyString) (p2 :: pieces)))%string.
    rewrite (split_char_app _ _ _ Hp), IH; [reflexivity|discriminate|exact Hrest].
Qed.

Lemma list_map_int_refused (int : string -> option Z) (pieces : list string)
    (p : string) :
  In p pieces -> int p = None -> list_map_int int pieces = None.
Proof.
  induction pieces as [|p' pieces IH]; [intros []|].
  intros [-> | Hin] Hp; cbn.
  - rewrite Hp. reflexivity.
  - destruct (int p'); [|reflexivity]. rewrite (IH Hin Hp). reflexivity.
Qed.

Lemma list_map_int_length (int : string -> option Z) (pieces : list string) :
  forall ids : list Z,
    list_map_int int pieces = Some ids -> List.length ids = List.length pieces.
Proof.
  induction pieces as [|p pieces IH]; cbn; intros ids H.
  - injection H as <-. reflexivity.
  - destruct (int p); [|discriminate].
    destruct (list_map_int int pieces) as [zs|]; [|discriminate].
    injection H as <-. cbn. now rewrite (IH zs).
Qed.

(** X12. The value of the variable is cut at every comma and each piece
    goes through [int]: for pieces without a comma, joined by commas, the
    list is the list of their integers, in order and one for one, and a
    single piece that [int] refuses fails the whole with [ValueError]. *)
Theorem environ_int_list_pieces (int : string -> option Z)
    (pieces : list string) :
  pieces <> [] ->
  Forall (fun p => has_char ","%char p = false) pieces ->
  environ_int_list int (Some (String.concat "," pieces))
  = match list_map_int int pieces with
    | Some ids => inl ids
    | None => inr ValueError
    end
  /\ (forall ids : list Z,
        environ_int_list int (Some (String.concat "," pieces)) = inl ids ->
        List.length ids = List.length pieces)
  /\ (forall p : string,
        In p pieces -> int p = None ->
        environ_int_list int (Some (String.concat "," pieces))
        = inr ValueError).
Proof.
  intros Hne Hp. unfold environ_int_list.
  rewrite (split_char_concat _ _ Hne Hp). split; [reflexivity|]. split.
  - intros ids. destruct (list_map_int int pieces) as [zs|] eqn:E;
      [|discriminate].
    intros H; injection H as <-. now apply (list_map_int_length int).
  - intros p Hin Hr. rewrite (list_map_int_refused int pieces p Hin Hr).
    reflexivity.
Qed.

Lemma environ_int_list_pieces_witness :
  environ_int_list Samples.int_decimal (Some "-1001,7,42")
  = inl [-1001; 7; 42].
Proof.
  assert (Hne : ["-1001"; "7"; "42"] <> ([] : list string))
    by discriminate.
  assert (Hp : Forall (fun p => has_char ","%char p = false)
                 ["-1001"; "7"; "42"]) by (repeat constructor).
  exact (proj1 (environ_int_list_pieces Samples.int_decimal
                  ["-1001"; "7"; "42"] Hne Hp)).
Defined.




